(** * Verification of the OpenTelemetry-to-New-Relic metric transform

    Shallow embedding of [newrelic/internal/transform/metric.go]: the
    dispatcher [Record] (here [Record_], the name being a keyword), the
    converters [sum] and [minMaxSumCount] (with its
    helper [minMaxSumCountValues]) and the attribute builder [attributes].

    Conventions of the embedding:
    - a Go [map[string]interface{}] is a [gmap string any];
    - a Go result pair [(T, error)] is a Rocq pair whose second component is
      an [error], with [nil] as [None];
    - a [*label.Set] and a [*resource.Resource] are the list of their
      key/value pairs in iteration order (a nil pointer iterates as the
      empty list, as the library's nil-receiver methods do);
    - a [*metric.Descriptor] is an [option]: [None] is the nil pointer;
    - calls of the aggregation's accessors, entries into a converter and a
      nil dereference are effects, threaded through the monad [M]. *)

From stdpp Require Import gmap strings list fin_maps.
From Stdlib Require Import ZArith Lia.
From Stdlib Require Import Floats.SpecFloat.

Local Open Scope Z_scope.

(** ** Go values shared by the packages *)

(** Go's [float64], as the IEEE-754 binary64 specification floats of the
    standard library (precision 53, maximal exponent 1024).  A NaN carries no
    payload in this representation. *)
Abbreviation float64 := spec_float (only parsing).

Definition prec64 : Z := 53.
Definition emax64 : Z := 1024.

(** [float64(i)] for an [int64] [i]: round to nearest, ties to even. *)
Definition float64_of_int64 (i : Z) : float64 :=
  binary_normalize prec64 emax64 i 0 false.

(** [math.Float64frombits]: sign in bit 63, biased exponent in bits 62..52,
    fraction in bits 51..0. *)
Definition Float64frombits (b : Z) : float64 :=
  let b := b mod 2 ^ 64 in
  let s := Z.testbit b 63 in
  let e := Z.land (Z.shiftr b 52) 2047 in
  let f := Z.land b (2 ^ 52 - 1) in
  if e =? 2047 then (if f =? 0 then S754_infinity s else S754_nan)
  else if e =? 0 then
    match f with
    | Zpos p => S754_finite s p (-1074)
    | _ => S754_zero s
    end
  else
    match f + 2 ^ 52 with
    | Zpos p => S754_finite s p (e - 1075)
    | _ => S754_zero s
    end.

(** The integer a float denotes, when it denotes one. *)
Definition float64_to_Z (f : float64) : option Z :=
  match f with
  | S754_zero _ => Some 0
  | S754_finite s m e =>
      let sign := if s then (-1) else 1 in
      if 0 <=? e then Some (sign * (Zpos m * 2 ^ e))
      else if Zpos m mod 2 ^ (- e) =? 0
           then Some (sign * (Zpos m / 2 ^ (- e)))
           else None
  | _ => None
  end.

(** The dynamic values a Go [interface{}] holds in an attribute map: the
    primitive types [label.Value.AsInterface] produces.  Floating-point
    values are carried as their bit patterns, no arithmetic is done on them
    here. *)
Inductive any : Type :=
  | any_bool (b : bool)
  | any_int32 (i : Z)
  | any_int64 (i : Z)
  | any_uint32 (i : Z)
  | any_uint64 (i : Z)
  | any_float32 (bits : Z)
  | any_float64 (bits : Z)
  | any_string (s : string)
  | any_unknown.

(** Go's [error] interface: [None] is [nil].  [UnimplementedAgg] is the
    object behind the package variable [ErrUnimplementedAgg]; every other
    error object comes from an accessor of the aggregation. *)
Inductive error_value : Type :=
  | UnimplementedAgg
  | AccessorError (msg : string).

Abbreviation error := (option error_value) (only parsing).

(** ** Package [label] *)

Module label.

Inductive Value : Type :=
  | INVALID
  | BOOL (b : bool)
  | INT32 (i : Z)
  | INT64 (i : Z)
  | UINT32 (i : Z)
  | UINT64 (i : Z)
  | FLOAT32 (bits : Z)
  | FLOAT64 (bits : Z)
  | STRING (s : string).

Definition AsInterface (v : Value) : any :=
  match v with
  | INVALID => any_unknown
  | BOOL b => any_bool b
  | INT32 i => any_int32 i
  | INT64 i => any_int64 i
  | UINT32 i => any_uint32 i
  | UINT64 i => any_uint64 i
  | FLOAT32 b => any_float32 b
  | FLOAT64 b => any_float64 b
  | STRING s => any_string s
  end.

Record KeyValue : Type := KV { Key : string; Val : Value }.

(** [label.Set], by the sequence its iterator yields. *)
Abbreviation LabelSet := (list KeyValue) (only parsing).

Definition Len (l : LabelSet) : Z := Z.of_nat (length l).

End label.

(** ** Package [resource] *)

Module resource.

(** [resource.Resource], by the sequence its iterator yields. *)
Abbreviation Resource := (list label.KeyValue) (only parsing).

Definition Len (r : Resource) : Z := Z.of_nat (length r).

End resource.

(** ** Package [metric] *)

Module metric.

(** [metric.NumberKind] is an [int8]; only two of its values are declared. *)
Inductive NumberKind : Type :=
  | Int64NumberKind
  | Float64NumberKind
  | OtherNumberKind.

(** [metric.Number]: 64 raw bits, read as an [int64] or as a [float64]. *)
Abbreviation Number := Z (only parsing).

Definition AsInt64 (n : Number) : Z :=
  let u := n mod 2 ^ 64 in
  if u <? 2 ^ 63 then u else u - 2 ^ 64.

Definition AsFloat64 (n : Number) : float64 := Float64frombits n.

Definition CoerceToFloat64 (n : Number) (kind : NumberKind) : float64 :=
  match kind with
  | Int64NumberKind => float64_of_int64 (AsInt64 n)
  | Float64NumberKind => AsFloat64 n
  | OtherNumberKind => S754_zero false
  end.

Record Descriptor : Type := mkDescriptor {
  Name : string;
  Unit : string;
  Description : string;
  NumberKind_ : NumberKind
}.

End metric.

(** ** The attribute builder *)

(** The package-level constants [attributes] refers to.  Their declarations
    are in another file of the package; the development is parametric in
    them. *)
Class Constants : Type := mkConstants {
  serviceNameAttrKey : string;
  instrumentationProviderAttrKey : string;
  instrumentationProviderAttrValue : string;
  collectorNameAttrKey : string;
  collectorNameAttrValue : string
}.

(** Modelled from the spec: the constant declarations of the package are not
    part of [metric.go].  The spec names the provenance key
    [instrumentation.provider], a collector-name key and a service-name key,
    each a fixed string.  This instance is used to evaluate the code on
    concrete inputs only; every general theorem holds for all constants. *)
Definition nr_constants : Constants := {|
  serviceNameAttrKey := "service.name";
  instrumentationProviderAttrKey := "instrumentation.provider";
  instrumentationProviderAttrValue := "opentelemetry";
  collectorNameAttrKey := "collector.name";
  collectorNameAttrValue := "newrelic-opentelemetry-exporter"
|}.

(** [make(map[string]interface{}, n)]: the capacity hint does not show in the
    contents. *)
Definition make (n : Z) : gmap string any := ∅.

(** One pass of [for iter := s.Iter(); iter.Next(); { attrs[k] = v }]. *)
Definition insert_all (attrs : gmap string any) (kvs : list label.KeyValue)
  : gmap string any :=
  foldl (fun m kv => <[label.Key kv := label.AsInterface (label.Val kv)]> m)
        attrs kvs.

Section Attributes.
Context {consts : Constants}.

(** The capacity hint [n] of [attributes] (lines 88 to 99). *)
Definition attributes_n (service : string) (res : resource.Resource)
    (desc : option metric.Descriptor) (labels : label.LabelSet) : Z :=
  let n := 2 + label.Len labels + resource.Len res in
  let n :=
    match desc with
    | Some d =>
        let n := if bool_decide (metric.Unit d ≠ "") then n + 1 else n in
        if bool_decide (metric.Description d ≠ "") then n + 1 else n
    | None => n
    end in
  if bool_decide (service ≠ "") then n + 1 else n.

Definition attributes (service : string) (res : resource.Resource)
    (desc : option metric.Descriptor) (labels : label.LabelSet)
  : gmap string any :=
  let n := attributes_n service res desc labels in
  let attrs := make n in
  let attrs := insert_all attrs res in
  let attrs := insert_all attrs labels in
  let attrs :=
    match desc with
    | Some d =>
        let attrs :=
          if bool_decide (metric.Unit d ≠ "")
          then <["unit" := any_string (metric.Unit d)]> attrs else attrs in
        if bool_decide (metric.Description d ≠ "")
        then <["description" := any_string (metric.Description d)]> attrs
        else attrs
    | None => attrs
    end in
  let attrs :=
    if bool_decide (service ≠ "")
    then <[serviceNameAttrKey := any_string service]> attrs else attrs in
  let attrs :=
    <[instrumentationProviderAttrKey :=
        any_string instrumentationProviderAttrValue]> attrs in
  <[collectorNameAttrKey := any_string collectorNameAttrValue]> attrs.

End Attributes.

(** ** Effects of the converters *)

Inductive Accessor : Type := AccMin | AccMax | AccSum | AccCount.

Inductive Converter : Type := ConvSum | ConvMinMaxSumCount.

(** What a call of [Record] does besides computing its result: it enters a
    converter, and it calls accessors of the aggregation. *)
Inductive Event : Type :=
  | Invoke (c : Converter)
  | Access (a : Accessor).

(** A call either returns, or panics on a nil dereference. *)
Inductive outcome (A : Type) : Type :=
  | Returns (a : A)
  | Panics.
Arguments Returns {A} a.
Arguments Panics {A}.

(** Computations: the events so far, in order, and the outcome. *)
Definition M (A : Type) : Type := list Event * outcome A.

#[global] Instance M_ret : MRet M := fun A a => ([], Returns a).

#[global] Instance M_bind : MBind M := fun A B f m =>
  match m with
  | (t, Returns a) => let '(t', r) := f a in (t ++ t', r)
  | (t, Panics) => (t, Panics)
  end.

Definition emit (e : Event) : M unit := ([e], Returns tt).

(** [*p] for a pointer [p]. *)
Definition deref {A : Type} (p : option A) : M A :=
  match p with
  | Some a => mret a
  | None => ([], Panics)
  end.

(** A method call [a.Min()], [a.Max()], [a.Sum()] or [a.Count()] that yields
    [r]. *)
Definition access {A : Type} (acc : Accessor) (r : A) : M A :=
  emit (Access acc);; mret r.

Definition trace {A : Type} (m : M A) : list Event := m.1.

(** The converters a computation entered, in order. *)
Definition invocations {A : Type} (m : M A) : list Converter :=
  omap (fun e => match e with Invoke c => Some c | Access _ => None end)
       (trace m).

(** The accessors a computation called, in order. *)
Definition accesses {A : Type} (m : M A) : list Accessor :=
  omap (fun e => match e with Access a => Some a | Invoke _ => None end)
       (trace m).

(** [err != nil] *)
Definition not_nil (err : error) : bool :=
  match err with Some _ => true | None => false end.

(** ** Package [aggregation] *)

Module aggregation.

(** The interface [aggregation.Sum]: a value with a method [Sum]. *)
Module Sum.
Record t : Type := mk { Sum : metric.Number * error }.
End Sum.

(** The interface [aggregation.MinMaxSumCount]. *)
Module MinMaxSumCount.
Record t : Type := mk {
  Min : metric.Number * error;
  Max : metric.Number * error;
  Sum : metric.Number * error;
  Count : Z * error
}.
End MinMaxSumCount.

(** A dynamic value of interface type [aggregation.Aggregation], by its
    method set: a method is [None] when the concrete type does not have it,
    and otherwise holds what a call of it yields.  The nil interface has no
    method. *)
Record Aggregation : Type := mkAggregation {
  method_Min : option (metric.Number * error);
  method_Max : option (metric.Number * error);
  method_Sum : option (metric.Number * error);
  method_Count : option (Z * error)
}.

(** The concrete type of [a] implements [aggregation.Sum]. *)
Definition implements_Sum (a : Aggregation) : Prop :=
  is_Some (method_Sum a).

(** The concrete type of [a] implements [aggregation.MinMaxSumCount]. *)
Definition implements_MinMaxSumCount (a : Aggregation) : Prop :=
  is_Some (method_Min a) ∧ is_Some (method_Max a) ∧
  is_Some (method_Sum a) ∧ is_Some (method_Count a).

(** The type-switch case [case aggregation.MinMaxSumCount]. *)
Definition as_MinMaxSumCount (a : Aggregation) : option MinMaxSumCount.t :=
  match method_Min a, method_Max a, method_Sum a, method_Count a with
  | Some mn, Some mx, Some sm, Some ct => Some (MinMaxSumCount.mk mn mx sm ct)
  | _, _, _, _ => None
  end.

(** The type-switch case [case aggregation.Sum]. *)
Definition as_Sum (a : Aggregation) : option Sum.t :=
  match method_Sum a with
  | Some sm => Some (Sum.mk sm)
  | None => None
  end.

End aggregation.

(** ** Package [metricsdk] *)

Module metricsdk.

(** [metricsdk.Record], by what its methods [Descriptor], [Labels] and
    [Aggregation] return. *)
Record Record_ : Type := mkRecord {
  Descriptor : option metric.Descriptor;
  Labels : label.LabelSet;
  Aggregation : aggregation.Aggregation
}.

End metricsdk.

(** ** Package [telemetry] *)

Module telemetry.

(** [telemetry.Count], by the fields the transform sets. *)
Module Count.
Record t : Type := mk {
  Name : string;
  Attributes : gmap string any;
  Value : float64
}.
End Count.

(** [telemetry.Summary], by the fields the transform sets. *)
Module Summary.
Record t : Type := mk {
  Name : string;
  Attributes : gmap string any;
  Count : float64;
  Sum : float64;
  Min : float64;
  Max : float64
}.
End Summary.

(** The interface [telemetry.Metric], by the two concrete types the
    transform stores in it. *)
Inductive Metric : Type :=
  | OfCount (c : Count.t)
  | OfSummary (s : Summary.t).

End telemetry.

(** ** Package [transform]: converters and dispatcher *)

Definition ErrUnimplementedAgg : error := Some UnimplementedAgg.

(** A [(telemetry.Metric, error)] result; a nil metric is [None]. *)
Abbreviation result := (option telemetry.Metric * error)%type (only parsing).

Definition sum (desc : option metric.Descriptor) (attrs : gmap string any)
    (a : aggregation.Sum.t) : M result :=
  emit (Invoke ConvSum);;
  '(sum, err) ← access AccSum (aggregation.Sum.Sum a);
  if not_nil err then mret (None, err)
  else
    d ← deref desc;
    mret (Some (telemetry.OfCount {|
            telemetry.Count.Name := metric.Name d;
            telemetry.Count.Attributes := attrs;
            telemetry.Count.Value :=
              metric.CoerceToFloat64 sum (metric.NumberKind_ d) |}),
          None).

(** The results [max], [sum] and [count] are named: a bare [return] yields
    their zero values when they were not assigned. *)
Definition minMaxSumCountValues (a : aggregation.MinMaxSumCount.t)
  : M (metric.Number * metric.Number * metric.Number * Z * error) :=
  '(min, err) ← access AccMin (aggregation.MinMaxSumCount.Min a);
  if not_nil err then mret (min, 0, 0, 0, err)
  else
    '(max, err) ← access AccMax (aggregation.MinMaxSumCount.Max a);
    if not_nil err then mret (min, max, 0, 0, err)
    else
      '(sum, err) ← access AccSum (aggregation.MinMaxSumCount.Sum a);
      if not_nil err then mret (min, max, sum, 0, err)
      else
        '(count, err) ← access AccCount (aggregation.MinMaxSumCount.Count a);
        mret (min, max, sum, count, err).

Definition minMaxSumCount (desc : option metric.Descriptor)
    (attrs : gmap string any) (a : aggregation.MinMaxSumCount.t) : M result :=
  emit (Invoke ConvMinMaxSumCount);;
  '(min, max, sum, count, err) ← minMaxSumCountValues a;
  if not_nil err then mret (None, err)
  else
    d ← deref desc;
    mret (Some (telemetry.OfSummary {|
            telemetry.Summary.Name := metric.Name d;
            telemetry.Summary.Attributes := attrs;
            telemetry.Summary.Count := float64_of_int64 count;
            telemetry.Summary.Sum :=
              metric.CoerceToFloat64 sum (metric.NumberKind_ d);
            telemetry.Summary.Min :=
              metric.CoerceToFloat64 min (metric.NumberKind_ d);
            telemetry.Summary.Max :=
              metric.CoerceToFloat64 max (metric.NumberKind_ d) |}),
          None).

Section Dispatcher.
Context {consts : Constants}.

(** [Record] of the source; the switch tries its cases in order. *)
Definition Record_ (service : string) (res : resource.Resource)
    (record : metricsdk.Record_) : M result :=
  let desc := metricsdk.Descriptor record in
  let attrs := attributes service res desc (metricsdk.Labels record) in
  let a := metricsdk.Aggregation record in
  match aggregation.as_MinMaxSumCount a with
  | Some a => minMaxSumCount desc attrs a
  | None =>
      match aggregation.as_Sum a with
      | Some a => sum desc attrs a
      | None => mret (None, ErrUnimplementedAgg)
      end
  end.

End Dispatcher.

(** ** The merge, as a sequence of writes *)

(** The key/value pairs one source writes, in the order it writes them. *)
Definition entries (kvs : list label.KeyValue) : list (string * any) :=
  (fun kv => (label.Key kv, label.AsInterface (label.Val kv))) <$> kvs.

Definition descriptor_entries (desc : option metric.Descriptor)
  : list (string * any) :=
  match desc with
  | None => []
  | Some d =>
      (if decide (metric.Unit d = "") then []
       else [("unit"%string, any_string (metric.Unit d))]) ++
      (if decide (metric.Description d = "") then []
       else [("description"%string, any_string (metric.Description d))])
  end.

(** The value the last write to [k] in [ws] stores, if [ws] writes [k]. *)
Fixpoint last_writer (k : string) (ws : list (string * any)) : option any :=
  match ws with
  | [] => None
  | (k', v) :: ws' =>
      match last_writer k ws' with
      | Some v' => Some v'
      | None => if decide (k' = k) then Some v else None
      end
  end.

(** [hi] if it is there, else [lo]. *)
Definition or_else (hi lo : option any) : option any :=
  match hi with Some v => Some v | None => lo end.

Definition write_all (m : gmap string any) (ws : list (string * any))
  : gmap string any :=
  foldl (fun m kv => <[kv.1 := kv.2]> m) m ws.

Section Writes.
Context {consts : Constants}.

Definition service_entries (service : string) : list (string * any) :=
  if decide (service = "") then []
  else [(serviceNameAttrKey, any_string service)].

Definition provenance_entries : list (string * any) :=
  [(instrumentationProviderAttrKey,
    any_string instrumentationProviderAttrValue);
   (collectorNameAttrKey, any_string collectorNameAttrValue)].

(** Every write of one call of [attributes], in the order resource, labels,
    descriptor, service, provenance. *)
Definition writes (service : string) (res : resource.Resource)
    (desc : option metric.Descriptor) (labels : label.LabelSet)
  : list (string * any) :=
  entries res ++ entries labels ++ descriptor_entries desc ++
  service_entries service ++ provenance_entries.

End Writes.

(** ** Concrete inputs *)

Module Examples.

(** The resource and the labels of the spec's precedence example. *)
Definition res_ab : resource.Resource :=
  [label.KV "a" (label.STRING "r1"); label.KV "b" (label.STRING "r2")].

Definition labels_ac : label.LabelSet :=
  [label.KV "a" (label.STRING "l1"); label.KV "c" (label.STRING "l3")].

(** A resource that carries a service name of its own. *)
Definition res_service : resource.Resource :=
  [label.KV "service.name" (label.STRING "shop")].

(** Caller-supplied entries that reuse the provenance key names. *)
Definition res_spoof : resource.Resource :=
  [label.KV "instrumentation.provider" (label.STRING "mine");
   label.KV "collector.name" (label.STRING "mine")].

Definition labels_spoof : label.LabelSet :=
  [label.KV "collector.name" (label.BOOL true);
   label.KV "instrumentation.provider" (label.INT64 7)].

Definition desc_requests : metric.Descriptor :=
  metric.mkDescriptor "requests" "ms" "request latency"
    metric.Int64NumberKind.

(** An aggregation with the four accessors: min 1, max 10, sum 20, count 4,
    the three numbers as [int64] bits. *)
Definition agg_mmsc : aggregation.Aggregation :=
  aggregation.mkAggregation
    (Some (1, None)) (Some (10, None)) (Some (20, None)) (Some (4, None)).

(** The same values with the three numbers as [float64] bits: 1.0 is
    0x3FF0000000000000, 10.0 is 0x4024000000000000 and 20.0 is
    0x4034000000000000. *)
Definition agg_mmsc_float : aggregation.Aggregation :=
  aggregation.mkAggregation
    (Some (4607182418800017408, None)) (Some (4621819117588971520, None))
    (Some (4626322717216342016, None)) (Some (4, None)).

Definition no_data : error_value := AccessorError "no data".

(** Aggregations with the four accessors, one of which fails. *)
Definition agg_min_fails : aggregation.Aggregation :=
  aggregation.mkAggregation
    (Some (0, Some no_data)) (Some (10, None)) (Some (20, None))
    (Some (4, None)).

Definition agg_max_fails : aggregation.Aggregation :=
  aggregation.mkAggregation
    (Some (1, None)) (Some (0, Some no_data)) (Some (20, None))
    (Some (4, None)).

Definition agg_sum_fails : aggregation.Aggregation :=
  aggregation.mkAggregation
    (Some (1, None)) (Some (10, None)) (Some (0, Some no_data))
    (Some (4, None)).

Definition agg_count_fails : aggregation.Aggregation :=
  aggregation.mkAggregation
    (Some (1, None)) (Some (10, None)) (Some (20, None))
    (Some (0, Some no_data)).

(** An aggregation with the accessor [Sum] only; 42.5 is
    0x4045400000000000. *)
Definition agg_sum : aggregation.Aggregation :=
  aggregation.mkAggregation None None (Some (4631178160564600832, None)) None.

Definition agg_sum_no_data : aggregation.Aggregation :=
  aggregation.mkAggregation None None (Some (0, Some no_data)) None.

(** An aggregation with none of the accessors, as a last-value aggregation
    is. *)
Definition agg_lastvalue : aggregation.Aggregation :=
  aggregation.mkAggregation None None None None.

Definition desc_requests_float : metric.Descriptor :=
  metric.mkDescriptor "requests" "" "" metric.Float64NumberKind.

Definition record_of (d : metric.Descriptor) (a : aggregation.Aggregation)
  : metricsdk.Record_ :=
  metricsdk.mkRecord (Some d) labels_ac a.

Definition mmsc_of (a : aggregation.Aggregation)
  : aggregation.MinMaxSumCount.t :=
  default (aggregation.MinMaxSumCount.mk (0, None) (0, None) (0, None)
             (0, None))
          (aggregation.as_MinMaxSumCount a).

End Examples.

(** ** Observers of results *)

(** The [Name] field of the struct behind a [telemetry.Metric]. *)
Definition metric_name (m : telemetry.Metric) : string :=
  match m with
  | telemetry.OfCount c => telemetry.Count.Name c
  | telemetry.OfSummary s => telemetry.Summary.Name s
  end.

(** The [Attributes] field of the struct behind a [telemetry.Metric]. *)
Definition metric_attributes (m : telemetry.Metric) : gmap string any :=
  match m with
  | telemetry.OfCount c => telemetry.Count.Attributes c
  | telemetry.OfSummary s => telemetry.Summary.Attributes s
  end.

(** The error a call of accessor [acc] on [a] yields, if [a] has that
    method. *)
Definition method_error (a : aggregation.Aggregation) (acc : Accessor)
  : option error :=
  match acc with
  | AccMin => snd <$> aggregation.method_Min a
  | AccMax => snd <$> aggregation.method_Max a
  | AccSum => snd <$> aggregation.method_Sum a
  | AccCount => snd <$> aggregation.method_Count a
  end.

#[global] Instance Accessor_eq_dec : EqDecision Accessor.
Proof. solve_decision. Defined.

Module MoreExamples.

(** The resource and labels of [Examples], iterated in another order. *)
Definition res_ba : resource.Resource :=
  [label.KV "b" (label.STRING "r2"); label.KV "a" (label.STRING "r1")].

Definition labels_ca : label.LabelSet :=
  [label.KV "c" (label.STRING "l3"); label.KV "a" (label.STRING "l1")].

(** Labels that use the keys of the descriptor entries. *)
Definition labels_unit : label.LabelSet :=
  [label.KV "description" (label.STRING "from a label");
   label.KV "unit" (label.STRING "s")].

(** A resource and labels with no key in common, none of them a key the
    builder writes itself. *)
Definition res_host : resource.Resource :=
  [label.KV "host" (label.STRING "h1")].

Definition labels_route : label.LabelSet :=
  [label.KV "route" (label.STRING "/pay"); label.KV "ok" (label.BOOL true)].

(** An aggregation as a histogram aggregation is: it has [Sum] and [Count]
    (and its buckets), but no [Min] and no [Max].  Its kind is neither sum
    nor min-max-sum-count. *)
Definition agg_histogram : aggregation.Aggregation :=
  aggregation.mkAggregation None None (Some (20, None)) (Some (4, None)).

End MoreExamples.

(** ** Facts about writes *)

Lemma or_else_assoc o1 o2 o3 :
  or_else (or_else o1 o2) o3 = or_else o1 (or_else o2 o3).
Proof. by destruct o1. Qed.

Lemma last_writer_app k ws1 ws2 :
  last_writer k (ws1 ++ ws2) =
  or_else (last_writer k ws2) (last_writer k ws1).
Proof.
  induction ws1 as [|[k' v] ws1 IH]; simpl.
  - by destruct (last_writer k ws2).
  - rewrite IH. destruct (last_writer k ws2); simpl; [done|].
    by destruct (last_writer k ws1).
Qed.

Lemma lookup_write_all ws : ∀ (m : gmap string any) k,
  write_all m ws !! k = or_else (last_writer k ws) (m !! k).
Proof.
  induction ws as [|[k' v] ws IH]; intros m k; simpl; [done|].
  rewrite IH. destruct (last_writer k ws); simpl; [done|].
  destruct (decide (k' = k)) as [->|Hne]; simpl.
  - by rewrite lookup_insert_eq.
  - by rewrite lookup_insert_ne.
Qed.

Lemma write_all_app (m : gmap string any) ws1 ws2 :
  write_all m (ws1 ++ ws2) = write_all (write_all m ws1) ws2.
Proof. apply foldl_app. Qed.

Lemma insert_all_write_all kvs : ∀ m : gmap string any,
  insert_all m kvs = write_all m (entries kvs).
Proof.
  induction kvs as [|kv kvs IH]; intros m; simpl; [done|]. apply IH.
Qed.

Lemma last_writer_None k ws :
  last_writer k ws = None ↔ k ∉ ws.*1.
Proof.
  induction ws as [|[k' v] ws IH]; simpl.
  - split; [intros _; apply not_elem_of_nil | done].
  - rewrite not_elem_of_cons. destruct (last_writer k ws) eqn:E.
    + split; [done|]. intros [_ Hn]. by apply IH in Hn.
    + destruct (decide (k' = k)) as [->|Hne]; split; try done.
      * by intros [? _].
      * intros _. split; [congruence | by apply IH].
Qed.

Section AttributeFacts.
Context {consts : Constants}.

(** [attributes] performs the writes of [writes], in that order, on an empty
    map. *)
Lemma attributes_write_all service res desc labels :
  attributes service res desc labels =
  write_all ∅ (writes service res desc labels).
Proof.
  unfold attributes, writes, make.
  rewrite !insert_all_write_all, !write_all_app.
  unfold service_entries, provenance_entries.
  destruct desc as [d|]; simpl.
  - repeat case_bool_decide; repeat case_decide; simpl; congruence.
  - repeat case_bool_decide; repeat case_decide; simpl; congruence.
Qed.

Lemma lookup_attributes service res desc labels k :
  attributes service res desc labels !! k =
  last_writer k (writes service res desc labels).
Proof.
  rewrite attributes_write_all, lookup_write_all, lookup_empty.
  by destruct (last_writer _ _).
Qed.

End AttributeFacts.

(** ** The attribute builder: precedence, provenance, service name *)

Section AttributeClaims.
Context {consts : Constants}.

(** C1.  The attribute mapping has unique keys, and the value of every key is
    the one its last writer stored, the writers taken in the order resource
    entries, point labels, descriptor entries (unit, description), service
    entry, provenance entries.  Read from the highest priority down: a
    resource value shows only where no label, descriptor entry, service
    entry or provenance entry writes the key; so where a label writes the
    key, the resource does not decide the value. *)
Theorem attributes_last_writer_wins service res desc labels k :
  NoDup (map_to_list (attributes service res desc labels)).*1 ∧
  attributes service res desc labels !! k =
    last_writer k (entries res ++ entries labels ++ descriptor_entries desc
                   ++ service_entries service ++ provenance_entries) ∧
  attributes service res desc labels !! k =
    or_else (last_writer k provenance_entries)
      (or_else (last_writer k (service_entries service))
         (or_else (last_writer k (descriptor_entries desc))
            (or_else (last_writer k (entries labels))
               (last_writer k (entries res))))) ∧
  (is_Some (last_writer k (entries labels)) →
   attributes service res desc labels !! k =
   attributes service [] desc labels !! k).
Proof.
  split; [apply NoDup_fst_map_to_list|].
  split; [apply lookup_attributes|].
  split.
  - rewrite lookup_attributes. unfold writes.
    by rewrite !last_writer_app, !or_else_assoc.
  - intros [v Hv]. rewrite !lookup_attributes. unfold writes.
    by rewrite !last_writer_app, Hv, !or_else_assoc.
Qed.

(** C7.  Whatever the service, resource, descriptor and labels are, the
    mapping binds the two provenance keys to their constants (the two keys
    being different strings). *)
Theorem attributes_provenance service res desc labels :
  instrumentationProviderAttrKey ≠ collectorNameAttrKey →
  attributes service res desc labels !! instrumentationProviderAttrKey =
    Some (any_string instrumentationProviderAttrValue) ∧
  attributes service res desc labels !! collectorNameAttrKey =
    Some (any_string collectorNameAttrValue).
Proof.
  intros Hne. unfold attributes. split.
  - rewrite lookup_insert_ne by congruence. apply lookup_insert_eq.
  - apply lookup_insert_eq.
Qed.

(** C8, as amended.  With a service-name key that is not a provenance key:
    for an empty [service] the builder writes no service entry, so the key
    is bound exactly when a resource entry, a label or a descriptor entry
    writes it, and then to the last such value; for a non-empty [service]
    the key is bound to that string. *)
Theorem attributes_service_name service res desc labels :
  serviceNameAttrKey ≠ instrumentationProviderAttrKey →
  serviceNameAttrKey ≠ collectorNameAttrKey →
  attributes service res desc labels !! serviceNameAttrKey =
    if decide (service = "")
    then last_writer serviceNameAttrKey
           (entries res ++ entries labels ++ descriptor_entries desc)
    else Some (any_string service).
Proof.
  intros H1 H2. rewrite lookup_attributes. unfold writes.
  rewrite !last_writer_app. unfold provenance_entries, service_entries.
  simpl. rewrite !decide_False by congruence. simpl.
  destruct (decide (service = "")); simpl.
  - reflexivity.
  - by rewrite decide_True.
Qed.

(** C10.  For a nil descriptor the builder counts and writes no unit and no
    description entry: the hint is two plus the sizes of the label set and
    of the resource, plus one for a non-empty service, and the mapping is
    the one the resource, label, service and provenance writes give. *)
Theorem attributes_nil_descriptor service res labels :
  attributes_n service res None labels =
    2 + label.Len labels + resource.Len res
    + (if decide (service = "") then 0 else 1) ∧
  attributes service res None labels =
    <[collectorNameAttrKey := any_string collectorNameAttrValue]>
      (<[instrumentationProviderAttrKey :=
           any_string instrumentationProviderAttrValue]>
         (write_all (insert_all (insert_all ∅ res) labels)
            (service_entries service))) ∧
  (∀ k, attributes service res None labels !! k =
        last_writer k (entries res ++ entries labels
                       ++ service_entries service ++ provenance_entries)) ∧
  attributes service res None labels =
    attributes service res (Some (metric.mkDescriptor "" "" ""
                                    metric.Int64NumberKind)) labels.
Proof.
  split; [|split; [|split]].
  - unfold attributes_n. case_bool_decide; case_decide; try done; lia.
  - unfold attributes, make, service_entries.
    by case_bool_decide; case_decide.
  - intros k. by rewrite lookup_attributes.
  - unfold attributes, attributes_n. simpl. done.
Qed.

End AttributeClaims.

(** The spec's precedence example: the label value of ["a"] is the one in
    the mapping, the resource value of ["a"] is not. *)
Example attributes_precedence_example :
  let m := attributes (consts := nr_constants) ""
             Examples.res_ab None Examples.labels_ac in
  m !! "a" = Some (any_string "l1") ∧
  m !! "b" = Some (any_string "r2") ∧
  m !! "c" = Some (any_string "l3") ∧
  m !! "instrumentation.provider" = Some (any_string "opentelemetry") ∧
  m !! "collector.name" =
    Some (any_string "newrelic-opentelemetry-exporter") ∧
  size m = 5%nat.
Proof. vm_compute. repeat split. Qed.

Lemma attributes_last_writer_wins_witness :
  attributes (consts := nr_constants) "" Examples.res_ab None
    Examples.labels_ac !! "a" =
  attributes (consts := nr_constants) "" [] None Examples.labels_ac !! "a".
Proof.
  apply (attributes_last_writer_wins (consts := nr_constants) ""
           Examples.res_ab None Examples.labels_ac "a").
  vm_compute. eauto.
Defined.

Lemma attributes_provenance_witness :
  attributes (consts := nr_constants) "svc" Examples.res_spoof
    (Some Examples.desc_requests) Examples.labels_spoof
    !! "instrumentation.provider" = Some (any_string "opentelemetry") ∧
  attributes (consts := nr_constants) "svc" Examples.res_spoof
    (Some Examples.desc_requests) Examples.labels_spoof
    !! "collector.name" =
    Some (any_string "newrelic-opentelemetry-exporter").
Proof.
  apply (attributes_provenance (consts := nr_constants) "svc"
           Examples.res_spoof (Some Examples.desc_requests)
           Examples.labels_spoof).
  vm_compute. discriminate.
Defined.

(** C8, the claim as stated fails: with an empty [service] the service-name
    key is in the mapping when the resource carries it. *)
Lemma attributes_empty_service_key_present :
  attributes (consts := nr_constants) "" Examples.res_service None []
    !! serviceNameAttrKey (Constants := nr_constants) =
  Some (any_string "shop").
Proof. vm_compute. reflexivity. Qed.

Lemma attributes_service_name_witness :
  attributes (consts := nr_constants) "checkout-api" Examples.res_service
    None [] !! "service.name" = Some (any_string "checkout-api") ∧
  attributes (consts := nr_constants) "" Examples.res_ab None
    Examples.labels_ac !! "service.name" = None.
Proof.
  split.
  - apply (attributes_service_name (consts := nr_constants) "checkout-api"
             Examples.res_service None []); vm_compute; discriminate.
  - apply (attributes_service_name (consts := nr_constants) ""
             Examples.res_ab None Examples.labels_ac);
      vm_compute; discriminate.
Defined.

(** ** The converters and the dispatcher *)

Lemma invocations_minMaxSumCount desc attrs a :
  invocations (minMaxSumCount desc attrs a) = [ConvMinMaxSumCount].
Proof.
  destruct a as [[mn [e1|]] [mx [e2|]] [sm [e3|]] [ct [e4|]]];
    destruct desc; reflexivity.
Qed.

Lemma invocations_sum desc attrs a :
  invocations (sum desc attrs a) = [ConvSum].
Proof. destruct a as [[sm [e|]]]; destruct desc; reflexivity. Qed.

Lemma as_MinMaxSumCount_None a :
  ¬ aggregation.implements_MinMaxSumCount a →
  aggregation.as_MinMaxSumCount a = None.
Proof.
  unfold aggregation.implements_MinMaxSumCount, aggregation.as_MinMaxSumCount.
  intros Hn.
  destruct (aggregation.method_Min a), (aggregation.method_Max a),
    (aggregation.method_Sum a), (aggregation.method_Count a); try done.
  destruct Hn. eauto.
Qed.

Lemma as_MinMaxSumCount_Some a :
  aggregation.implements_MinMaxSumCount a →
  ∃ mn mx sm ct,
    aggregation.method_Min a = Some mn ∧ aggregation.method_Max a = Some mx ∧
    aggregation.method_Sum a = Some sm ∧
    aggregation.method_Count a = Some ct ∧
    aggregation.as_MinMaxSumCount a =
      Some (aggregation.MinMaxSumCount.mk mn mx sm ct).
Proof.
  unfold aggregation.implements_MinMaxSumCount, aggregation.as_MinMaxSumCount.
  intros ([mn ->] & [mx ->] & [sm ->] & [ct ->]).
  exists mn, mx, sm, ct. done.
Qed.

Lemma as_Sum_None a :
  ¬ aggregation.implements_Sum a → aggregation.as_Sum a = None.
Proof.
  unfold aggregation.implements_Sum, aggregation.as_Sum. intros Hn.
  destruct (aggregation.method_Sum a); [|done]. destruct Hn. eauto.
Qed.

Section DispatcherClaims.
Context {consts : Constants}.

(** C2, as amended.  The dispatcher routes by the accessor sets the
    aggregation has, the larger set first: an aggregation with the
    min-max-sum-count accessors (which include [Sum]) goes to the
    MinMaxSumCount converter and to no other; one with [Sum] but not all of
    the min-max-sum-count accessors goes to the Sum converter and to no
    other; one without [Sum] goes to no converter. *)
Theorem Record_dispatch service res record :
  let agg := metricsdk.Aggregation record in
  let desc := metricsdk.Descriptor record in
  let attrs := attributes service res desc (metricsdk.Labels record) in
  (aggregation.implements_MinMaxSumCount agg →
   ∃ a, aggregation.as_MinMaxSumCount agg = Some a ∧
        Record_ service res record = minMaxSumCount desc attrs a ∧
        invocations (Record_ service res record) = [ConvMinMaxSumCount]) ∧
  (¬ aggregation.implements_MinMaxSumCount agg →
   aggregation.implements_Sum agg →
   ∃ a, aggregation.as_Sum agg = Some a ∧
        Record_ service res record = sum desc attrs a ∧
        invocations (Record_ service res record) = [ConvSum]) ∧
  (¬ aggregation.implements_Sum agg →
   invocations (Record_ service res record) = []).
Proof.
  intros agg desc attrs. unfold Record_. fold agg desc attrs.
  split; [|split].
  - intros H. destruct (as_MinMaxSumCount_Some _ H)
      as (mn & mx & sm & ct & _ & _ & _ & _ & ->).
    eexists. split; [done|]. split; [done|].
    apply invocations_minMaxSumCount.
  - intros Hn [sm Hs]. rewrite (as_MinMaxSumCount_None _ Hn).
    unfold aggregation.as_Sum. rewrite Hs.
    eexists. split; [done|]. split; [done|]. apply invocations_sum.
  - intros Hn. rewrite as_MinMaxSumCount_None, (as_Sum_None _ Hn); [done|].
    intros (_ & _ & Hs & _). by apply Hn.
Qed.

(** C3, as amended.  The records that get a nil metric and
    [ErrUnimplementedAgg], with no converter or accessor called, are exactly
    those whose aggregation has neither the sum accessor nor the
    min-max-sum-count accessor set.  An aggregation of any other kind that
    does have [Sum] is not among them: it goes to a converter. *)
Theorem Record_unimplemented service res record :
  Record_ service res record = ([], Returns (None, Some UnimplementedAgg)) ↔
  ¬ aggregation.implements_Sum (metricsdk.Aggregation record) ∧
  ¬ aggregation.implements_MinMaxSumCount (metricsdk.Aggregation record).
Proof.
  split.
  - intros H.
    assert (invocations (Record_ service res record) = []) as Hi
      by (by rewrite H).
    clear H. unfold Record_ in Hi. split.
    + intros [sm Hs].
      destruct (aggregation.as_MinMaxSumCount _).
      * by rewrite invocations_minMaxSumCount in Hi.
      * unfold aggregation.as_Sum in Hi. rewrite Hs in Hi.
        by rewrite invocations_sum in Hi.
    + intros Hm. destruct (as_MinMaxSumCount_Some _ Hm)
        as (? & ? & ? & ? & _ & _ & _ & _ & Heq).
      rewrite Heq in Hi. by rewrite invocations_minMaxSumCount in Hi.
  - intros [Hs Hm]. unfold Record_.
    by rewrite (as_MinMaxSumCount_None _ Hm), (as_Sum_None _ Hs).
Qed.

(** C5.  For a record whose aggregation goes to the Sum converter: when
    [Sum()] fails, the result is a nil metric and that error; when it
    succeeds, the result is a Count metric with the descriptor's name, the
    merged attributes and the sum coerced by the descriptor's number kind,
    and a nil error. *)
Theorem Record_sum service res record s err :
  ¬ aggregation.implements_MinMaxSumCount (metricsdk.Aggregation record) →
  aggregation.method_Sum (metricsdk.Aggregation record) = Some (s, err) →
  (∀ e, err = Some e →
     Record_ service res record =
     ([Invoke ConvSum; Access AccSum], Returns (None, Some e))) ∧
  (∀ d, err = None → metricsdk.Descriptor record = Some d →
     Record_ service res record =
     ([Invoke ConvSum; Access AccSum],
      Returns
        (Some (telemetry.OfCount {|
           telemetry.Count.Name := metric.Name d;
           telemetry.Count.Attributes :=
             attributes service res (Some d) (metricsdk.Labels record);
           telemetry.Count.Value :=
             metric.CoerceToFloat64 s (metric.NumberKind_ d) |}),
         None))).
Proof.
  intros Hm Hs. unfold Record_.
  rewrite (as_MinMaxSumCount_None _ Hm). unfold aggregation.as_Sum.
  rewrite Hs. split.
  - by intros e ->.
  - by intros d -> ->.
Qed.

(** C6.  For a record whose aggregation has the four accessors and all four
    succeed, the result is a Summary metric with the descriptor's name and
    the merged attributes; min, max and sum are coerced by the descriptor's
    number kind, count is converted from its integer. *)
Theorem Record_minMaxSumCount service res record d mn mx sm ct :
  let agg := metricsdk.Aggregation record in
  aggregation.method_Min agg = Some (mn, None) →
  aggregation.method_Max agg = Some (mx, None) →
  aggregation.method_Sum agg = Some (sm, None) →
  aggregation.method_Count agg = Some (ct, None) →
  metricsdk.Descriptor record = Some d →
  Record_ service res record =
  ([Invoke ConvMinMaxSumCount; Access AccMin; Access AccMax; Access AccSum;
    Access AccCount],
   Returns
     (Some (telemetry.OfSummary {|
        telemetry.Summary.Name := metric.Name d;
        telemetry.Summary.Attributes :=
          attributes service res (Some d) (metricsdk.Labels record);
        telemetry.Summary.Count := float64_of_int64 ct;
        telemetry.Summary.Sum :=
          metric.CoerceToFloat64 sm (metric.NumberKind_ d);
        telemetry.Summary.Min :=
          metric.CoerceToFloat64 mn (metric.NumberKind_ d);
        telemetry.Summary.Max :=
          metric.CoerceToFloat64 mx (metric.NumberKind_ d) |}),
      None)).
Proof.
  intros agg H1 H2 H3 H4 Hd. unfold Record_, aggregation.as_MinMaxSumCount.
  fold agg. by rewrite H1, H2, H3, H4, Hd.
Qed.

(** C9.  Whatever the record is, when the call returns it returns either a
    metric and a nil error, or a nil metric and an error: never both, never
    neither.  And for a record that has a descriptor the call does return.
    (Without a descriptor it returns when an accessor fails or the
    aggregation is unsupported, and panics otherwise.) *)
Theorem Record_metric_xor_error service res record :
  (∀ t m e,
     Record_ service res record = (t, Returns (m, e)) →
     (is_Some m ∧ e = None) ∨ (m = None ∧ is_Some e)) ∧
  (∀ d, metricsdk.Descriptor record = Some d →
     ∃ t m e, Record_ service res record = (t, Returns (m, e))).
Proof.
  unfold Record_. split.
  - intros t m e.
    destruct (aggregation.as_MinMaxSumCount _) as [a|].
    + destruct a as [[mn [e1|]] [mx [e2|]] [sm [e3|]] [ct [e4|]]];
        destruct (metricsdk.Descriptor record);
        intros [= <- <- <-] || intros [=]; eauto.
    + destruct (aggregation.as_Sum _) as [[[sm [e1|]]]|];
        destruct (metricsdk.Descriptor record);
        intros [= <- <- <-] || intros [=]; eauto.
  - intros d ->.
    destruct (aggregation.as_MinMaxSumCount _) as [a|].
    + destruct a as [[mn [e1|]] [mx [e2|]] [sm [e3|]] [ct [e4|]]];
        do 3 eexists; reflexivity.
    + destruct (aggregation.as_Sum _) as [[[sm [e1|]]]|];
        do 3 eexists; reflexivity.
Qed.

End DispatcherClaims.

(** C4.  The MinMaxSumCount converter calls [Min], [Max], [Sum], [Count] in
    that order; at the first call that fails it calls no further accessor
    and returns a nil metric with that error. *)
Theorem minMaxSumCount_first_failure desc attrs a :
  let r := minMaxSumCount desc attrs a in
  (∀ v e, aggregation.MinMaxSumCount.Min a = (v, Some e) →
     r = ([Invoke ConvMinMaxSumCount; Access AccMin],
          Returns (None, Some e))) ∧
  (∀ v1 v e, aggregation.MinMaxSumCount.Min a = (v1, None) →
     aggregation.MinMaxSumCount.Max a = (v, Some e) →
     r = ([Invoke ConvMinMaxSumCount; Access AccMin; Access AccMax],
          Returns (None, Some e))) ∧
  (∀ v1 v2 v e, aggregation.MinMaxSumCount.Min a = (v1, None) →
     aggregation.MinMaxSumCount.Max a = (v2, None) →
     aggregation.MinMaxSumCount.Sum a = (v, Some e) →
     r = ([Invoke ConvMinMaxSumCount; Access AccMin; Access AccMax;
           Access AccSum],
          Returns (None, Some e))) ∧
  (∀ v1 v2 v3 v e, aggregation.MinMaxSumCount.Min a = (v1, None) →
     aggregation.MinMaxSumCount.Max a = (v2, None) →
     aggregation.MinMaxSumCount.Sum a = (v3, None) →
     aggregation.MinMaxSumCount.Count a = (v, Some e) →
     r = ([Invoke ConvMinMaxSumCount; Access AccMin; Access AccMax;
           Access AccSum; Access AccCount],
          Returns (None, Some e))) ∧
  (∀ v1 v2 v3 v4, aggregation.MinMaxSumCount.Min a = (v1, None) →
     aggregation.MinMaxSumCount.Max a = (v2, None) →
     aggregation.MinMaxSumCount.Sum a = (v3, None) →
     aggregation.MinMaxSumCount.Count a = (v4, None) →
     accesses r = [AccMin; AccMax; AccSum; AccCount]).
Proof.
  destruct a as [mn mx sm ct]. simpl.
  repeat split; intros; subst; try reflexivity.
  by destruct desc.
Qed.

(** ** The claims on concrete records *)

(** C2, the claim as stated fails.  An aggregation with the four accessors
    has the sum accessor set too, and the dispatcher does not hand it to the
    Sum converter: it enters the MinMaxSumCount converter only and returns a
    Summary metric, not a Count metric.  And for an aggregation without
    accessors the dispatcher enters no converter, not one. *)
Lemma Record_both_accessor_sets :
  let r := Examples.record_of Examples.desc_requests Examples.agg_mmsc in
  let u := Examples.record_of Examples.desc_requests Examples.agg_lastvalue in
  aggregation.implements_Sum (metricsdk.Aggregation r) ∧
  invocations (Record_ (consts := nr_constants) "" [] r) =
    [ConvMinMaxSumCount] ∧
  (∃ s, (Record_ (consts := nr_constants) "" [] r).2 =
        Returns (Some (telemetry.OfSummary s), None)) ∧
  invocations (Record_ (consts := nr_constants) "" [] u) = [].
Proof.
  repeat split.
  - unfold aggregation.implements_Sum. simpl. eauto.
  - eexists. reflexivity.
Qed.

Lemma Record_dispatch_witness :
  invocations (Record_ (consts := nr_constants) "svc" Examples.res_ab
                 (Examples.record_of Examples.desc_requests
                    Examples.agg_mmsc)) = [ConvMinMaxSumCount] ∧
  invocations (Record_ (consts := nr_constants) "svc" Examples.res_ab
                 (Examples.record_of Examples.desc_requests
                    Examples.agg_sum)) = [ConvSum] ∧
  invocations (Record_ (consts := nr_constants) "svc" Examples.res_ab
                 (Examples.record_of Examples.desc_requests
                    Examples.agg_lastvalue)) = [].
Proof.
  split; [|split].
  - destruct (Record_dispatch (consts := nr_constants) "svc" Examples.res_ab
                (Examples.record_of Examples.desc_requests
                   Examples.agg_mmsc)) as (H & _ & _).
    destruct H as (a & _ & _ & H); [|exact H].
    unfold aggregation.implements_MinMaxSumCount. simpl. eauto.
  - destruct (Record_dispatch (consts := nr_constants) "svc" Examples.res_ab
                (Examples.record_of Examples.desc_requests
                   Examples.agg_sum)) as (_ & H & _).
    destruct H as (a & _ & _ & H); [| |exact H].
    + unfold aggregation.implements_MinMaxSumCount. simpl.
      intros ([? ?] & _). discriminate.
    + unfold aggregation.implements_Sum. simpl. eauto.
  - destruct (Record_dispatch (consts := nr_constants) "svc" Examples.res_ab
                (Examples.record_of Examples.desc_requests
                   Examples.agg_lastvalue)) as (_ & _ & H).
    apply H. unfold aggregation.implements_Sum. simpl.
    intros [? ?]. discriminate.
Defined.

Lemma Record_unimplemented_witness :
  Record_ (consts := nr_constants) "svc" Examples.res_ab
    (Examples.record_of Examples.desc_requests Examples.agg_lastvalue) =
  ([], Returns (None, Some UnimplementedAgg)).
Proof.
  apply (proj2 (Record_unimplemented (consts := nr_constants) "svc"
                  Examples.res_ab
                  (Examples.record_of Examples.desc_requests
                     Examples.agg_lastvalue))).
  split.
  - unfold aggregation.implements_Sum. simpl. intros [? ?]. discriminate.
  - unfold aggregation.implements_MinMaxSumCount. simpl.
    intros ([? ?] & _). discriminate.
Defined.

(** C3, the claim as stated fails.  A histogram aggregation is of neither
    the sum kind nor the min-max-sum-count kind: it has no [Min] and no
    [Max], and it has a [Count].  It has a [Sum], so the dispatcher hands it
    to the Sum converter, and the call returns a Count metric of value 20
    and a nil error, not [ErrUnimplementedAgg]. *)
Lemma Record_histogram_converted :
  let r := Examples.record_of Examples.desc_requests
             MoreExamples.agg_histogram in
  aggregation.method_Min (metricsdk.Aggregation r) = None ∧
  aggregation.method_Max (metricsdk.Aggregation r) = None ∧
  aggregation.method_Count (metricsdk.Aggregation r) = Some (4, None) ∧
  ∃ c, Record_ (consts := nr_constants) "" [] r =
         ([Invoke ConvSum; Access AccSum],
          Returns (Some (telemetry.OfCount c), None)) ∧
       telemetry.Count.Name c = "requests"%string ∧
       float64_to_Z (telemetry.Count.Value c) = Some 20.
Proof.
  repeat split. eexists. repeat split.
Qed.

(** The spec's Sum example, with C5 applied: a floating-point descriptor
    named "requests" and a sum of 42.5 give a Count metric named "requests"
    of value 42.5, that is 5981343255101440 * 2^-47; a failing [Sum] gives
    its error. *)
Lemma Record_sum_witness :
  Record_ (consts := nr_constants) "svc" Examples.res_ab
    (Examples.record_of Examples.desc_requests Examples.agg_sum_no_data) =
  ([Invoke ConvSum; Access AccSum], Returns (None, Some Examples.no_data)) ∧
  Record_ (consts := nr_constants) "svc" Examples.res_ab
    (Examples.record_of Examples.desc_requests_float Examples.agg_sum) =
  ([Invoke ConvSum; Access AccSum],
   Returns
     (Some (telemetry.OfCount {|
        telemetry.Count.Name := "requests";
        telemetry.Count.Attributes :=
          attributes (consts := nr_constants) "svc" Examples.res_ab
            (Some Examples.desc_requests_float) Examples.labels_ac;
        telemetry.Count.Value := S754_finite false 5981343255101440 (-47) |}),
      None)).
Proof.
  split.
  - refine (proj1 (Record_sum (consts := nr_constants) "svc" Examples.res_ab
                     (Examples.record_of Examples.desc_requests
                        Examples.agg_sum_no_data) 0
                     (Some Examples.no_data) _ _) _ _).
    + unfold aggregation.implements_MinMaxSumCount. simpl.
      intros ([? ?] & _). discriminate.
    + reflexivity.
    + reflexivity.
  - refine (proj2 (Record_sum (consts := nr_constants) "svc" Examples.res_ab
                     (Examples.record_of Examples.desc_requests_float
                        Examples.agg_sum) 4631178160564600832 None _ _)
              Examples.desc_requests_float _ _).
    + unfold aggregation.implements_MinMaxSumCount. simpl.
      intros ([? ?] & _). discriminate.
    + reflexivity.
    + reflexivity.
    + reflexivity.
Defined.

(** The spec's MinMaxSumCount example, with C6 applied: min 1, max 10,
    sum 20 and count 4 give a Summary metric whose four fields denote
    exactly 1, 10, 20 and 4, for an integer descriptor and for a
    floating-point descriptor. *)
Lemma Record_minMaxSumCount_witness :
  (∃ s,
     Record_ (consts := nr_constants) "svc" Examples.res_ab
       (Examples.record_of Examples.desc_requests Examples.agg_mmsc) =
     ([Invoke ConvMinMaxSumCount; Access AccMin; Access AccMax;
       Access AccSum; Access AccCount],
      Returns (Some (telemetry.OfSummary s), None)) ∧
     telemetry.Summary.Name s = "requests"%string ∧
     float64_to_Z (telemetry.Summary.Min s) = Some 1 ∧
     float64_to_Z (telemetry.Summary.Max s) = Some 10 ∧
     float64_to_Z (telemetry.Summary.Sum s) = Some 20 ∧
     float64_to_Z (telemetry.Summary.Count s) = Some 4) ∧
  (∃ s,
     Record_ (consts := nr_constants) "svc" Examples.res_ab
       (Examples.record_of Examples.desc_requests_float
          Examples.agg_mmsc_float) =
     ([Invoke ConvMinMaxSumCount; Access AccMin; Access AccMax;
       Access AccSum; Access AccCount],
      Returns (Some (telemetry.OfSummary s), None)) ∧
     telemetry.Summary.Name s = "requests"%string ∧
     float64_to_Z (telemetry.Summary.Min s) = Some 1 ∧
     float64_to_Z (telemetry.Summary.Max s) = Some 10 ∧
     float64_to_Z (telemetry.Summary.Sum s) = Some 20 ∧
     float64_to_Z (telemetry.Summary.Count s) = Some 4).
Proof.
  split.
  - eexists. split.
    + apply (Record_minMaxSumCount (consts := nr_constants) "svc"
               Examples.res_ab
               (Examples.record_of Examples.desc_requests Examples.agg_mmsc)
               Examples.desc_requests 1 10 20 4); reflexivity.
    + repeat split.
  - eexists. split.
    + apply (Record_minMaxSumCount (consts := nr_constants) "svc"
               Examples.res_ab
               (Examples.record_of Examples.desc_requests_float
                  Examples.agg_mmsc_float)
               Examples.desc_requests_float
               4607182418800017408 4621819117588971520 4626322717216342016
               4); reflexivity.
    + repeat split.
Defined.

Lemma Record_metric_xor_error_witness :
  (∃ t m e,
     Record_ (consts := nr_constants) "svc" Examples.res_ab
       (Examples.record_of Examples.desc_requests Examples.agg_sum_fails) =
     (t, Returns (m, e))) ∧
  ((is_Some (None : option telemetry.Metric) ∧
    Some Examples.no_data = None) ∨
   ((None : option telemetry.Metric) = None ∧
    is_Some (Some Examples.no_data))).
Proof.
  split.
  - apply (proj2 (Record_metric_xor_error (consts := nr_constants) "svc"
                    Examples.res_ab
                    (Examples.record_of Examples.desc_requests
                       Examples.agg_sum_fails))
             Examples.desc_requests).
    reflexivity.
  - apply (proj1 (Record_metric_xor_error (consts := nr_constants) "svc" []
                    (metricsdk.mkRecord None [] Examples.agg_sum_no_data))
             [Invoke ConvSum; Access AccSum] None (Some Examples.no_data)).
    reflexivity.
Defined.

Lemma minMaxSumCount_first_failure_witness :
  let run a :=
    minMaxSumCount (Some Examples.desc_requests) ∅ (Examples.mmsc_of a) in
  run Examples.agg_min_fails =
    ([Invoke ConvMinMaxSumCount; Access AccMin],
     Returns (None, Some Examples.no_data)) ∧
  run Examples.agg_max_fails =
    ([Invoke ConvMinMaxSumCount; Access AccMin; Access AccMax],
     Returns (None, Some Examples.no_data)) ∧
  run Examples.agg_sum_fails =
    ([Invoke ConvMinMaxSumCount; Access AccMin; Access AccMax;
      Access AccSum],
     Returns (None, Some Examples.no_data)) ∧
  run Examples.agg_count_fails =
    ([Invoke ConvMinMaxSumCount; Access AccMin; Access AccMax;
      Access AccSum; Access AccCount],
     Returns (None, Some Examples.no_data)) ∧
  accesses (run Examples.agg_mmsc) = [AccMin; AccMax; AccSum; AccCount].
Proof.
  intros run. unfold run. split; [|split; [|split; [|split]]].
  - eapply (proj1 (minMaxSumCount_first_failure _ _ _)). reflexivity.
  - eapply (proj1 (proj2 (minMaxSumCount_first_failure _ _ _)));
      reflexivity.
  - eapply (proj1 (proj2 (proj2 (minMaxSumCount_first_failure _ _ _))));
      reflexivity.
  - eapply (proj1 (proj2 (proj2 (proj2
              (minMaxSumCount_first_failure _ _ _))))); reflexivity.
  - eapply (proj2 (proj2 (proj2 (proj2
              (minMaxSumCount_first_failure _ _ _))))); reflexivity.
Defined.

(** A record without a descriptor: the builder guards the nil pointer, the
    converters do not, so the call panics once the accessors have
    succeeded, and still returns the error when one of them fails. *)
Remark Record_nil_descriptor :
  Record_ (consts := nr_constants) "svc" []
    (metricsdk.mkRecord None [] Examples.agg_sum) =
  ([Invoke ConvSum; Access AccSum], Panics) ∧
  Record_ (consts := nr_constants) "svc" []
    (metricsdk.mkRecord None [] Examples.agg_sum_no_data) =
  ([Invoke ConvSum; Access AccSum], Returns (None, Some Examples.no_data)).
Proof. split; reflexivity. Qed.

(** ** Further properties of the attribute builder *)

#[local] Set Warnings "-clear-no-such-hyp".

Lemma size_write_all ws : ∀ m : gmap string any,
  (size (write_all m ws) ≤ size m + length ws)%nat.
Proof.
  induction ws as [|[k v] ws IH]; intros m; simpl.
  - unfold write_all. simpl. lia.
  - change (write_all m ((k, v) :: ws)) with (write_all (<[k:=v]> m) ws).
    etrans; [apply IH|]. rewrite map_size_insert. simpl.
    destruct (m !! k); unfold id; lia.
Qed.

Lemma dom_write_all ws : ∀ m : gmap string any,
  dom (write_all m ws) =@{gset string} dom m ∪ list_to_set ws.*1.
Proof.
  induction ws as [|[k v] ws IH]; intros m.
  - unfold write_all. simpl. set_solver.
  - change (write_all m ((k, v) :: ws)) with (write_all (<[k:=v]> m) ws).
    rewrite IH, dom_insert_L. simpl. set_solver.
Qed.

Lemma entries_keys kvs : (entries kvs).*1 = label.Key <$> kvs.
Proof. unfold entries. by rewrite <- list_fmap_compose. Qed.

Lemma last_writer_elem_of k v ws :
  last_writer k ws = Some v → (k, v) ∈ ws.
Proof.
  induction ws as [|[k' v'] ws IH]; simpl; [done|].
  destruct (last_writer k ws) eqn:E.
  - intros [= ->]. right. by apply IH.
  - destruct (decide (k' = k)) as [->|]; [|done]. intros [= ->]. left.
Qed.

Lemma last_writer_NoDup k v ws :
  NoDup ws.*1 → (k, v) ∈ ws → last_writer k ws = Some v.
Proof.
  induction ws as [|[k' v'] ws IH]; simpl.
  - intros _ H. by apply elem_of_nil in H.
  - intros Hnd Hin. apply NoDup_cons in Hnd as [Hk Hnd].
    apply elem_of_cons in Hin as [[= <- <-]|Hin].
    + destruct (last_writer k ws) eqn:E.
      * apply last_writer_elem_of in E. destruct Hk.
        apply list_elem_of_fmap. by exists (k, a).
      * by rewrite decide_True.
    + by rewrite (IH Hnd Hin).
Qed.

Lemma last_writer_Permutation k ws ws' :
  NoDup ws.*1 → ws ≡ₚ ws' → last_writer k ws = last_writer k ws'.
Proof.
  intros Hnd Hp.
  assert (NoDup ws'.*1) as Hnd' by (by rewrite <- Hp).
  destruct (last_writer k ws) as [v|] eqn:E.
  - symmetry. apply last_writer_NoDup; [done|].
    rewrite <- Hp. by apply last_writer_elem_of.
  - destruct (last_writer k ws') as [v|] eqn:E'; [|done].
    apply last_writer_elem_of in E'. rewrite <- Hp in E'.
    by rewrite (last_writer_NoDup _ _ _ Hnd E') in E.
Qed.

Section AttributeExtras.
Context {consts : Constants}.

Lemma writes_length service res desc labels :
  Z.of_nat (length (writes service res desc labels)) =
  attributes_n service res desc labels.
Proof.
  unfold writes, attributes_n, entries, service_entries, provenance_entries,
    descriptor_entries, label.Len, resource.Len.
  rewrite !length_app, !length_fmap.
  destruct desc as [d|]; repeat case_bool_decide; repeat case_decide;
    simpl; try done; lia.
Qed.

(** The capacity hint is never exceeded: the mapping has at most [n]
    entries, and it is never empty. *)
Theorem attributes_size_le_hint service res desc labels :
  Z.of_nat (size (attributes service res desc labels)) ≤
    attributes_n service res desc labels ∧
  attributes service res desc labels ≠ ∅.
Proof.
  split.
  - rewrite <- writes_length, attributes_write_all.
    pose proof (size_write_all (writes service res desc labels) ∅) as H.
    rewrite map_size_empty in H. lia.
  - unfold attributes. apply insert_non_empty.
Qed.

(** When no key is written twice, the mapping has exactly [n] entries: the
    hint is the exact size. *)
Theorem attributes_size_eq_hint service res desc labels :
  NoDup (writes service res desc labels).*1 →
  Z.of_nat (size (attributes service res desc labels)) =
    attributes_n service res desc labels.
Proof.
  intros Hnd. rewrite <- writes_length, attributes_write_all.
  rewrite <- (size_dom (D := gset string)), dom_write_all, dom_empty_L.
  rewrite (left_id_L ∅ (∪)), size_list_to_set by done.
  by rewrite length_fmap.
Qed.

(** The keys of the mapping are exactly the keys written: no entry of the
    resource or of the labels is dropped, and no other key appears. *)
Theorem attributes_dom service res desc labels :
  dom (attributes service res desc labels) =@{gset string}
    list_to_set (label.Key <$> res) ∪ list_to_set (label.Key <$> labels) ∪
    list_to_set (descriptor_entries desc).*1 ∪
    list_to_set (service_entries service).*1 ∪
    {[instrumentationProviderAttrKey; collectorNameAttrKey]}.
Proof.
  rewrite attributes_write_all, dom_write_all, dom_empty_L.
  unfold writes. rewrite !fmap_app, !list_to_set_app_L, !entries_keys.
  simpl. set_solver.
Qed.

(** With unique keys in the resource and in the labels, the order in which
    their iterators yield the entries does not show in the mapping. *)
Theorem attributes_Permutation service res res' desc labels labels' :
  NoDup (label.Key <$> res) → NoDup (label.Key <$> labels) →
  res ≡ₚ res' → labels ≡ₚ labels' →
  attributes service res desc labels = attributes service res' desc labels'.
Proof.
  intros Hr Hl Pr Pl. apply map_eq. intros k.
  rewrite !lookup_attributes. unfold writes. rewrite !last_writer_app.
  rewrite (last_writer_Permutation k (entries res) (entries res')),
    (last_writer_Permutation k (entries labels) (entries labels')); try done.
  - by rewrite entries_keys.
  - unfold entries. by rewrite Pl.
  - by rewrite entries_keys.
  - unfold entries. by rewrite Pr.
Qed.

(** The descriptor entries take precedence over the resource and the
    labels: a non-empty unit (description) is what the key "unit"
    ("description") is bound to, whatever they hold for it; an empty one
    leaves the key to them.  The keys "unit" and "description" are supposed
    not to be the service-name key or a provenance key. *)
Theorem attributes_unit_description service res d labels :
  "unit"%string ∉ [serviceNameAttrKey; instrumentationProviderAttrKey;
                   collectorNameAttrKey] →
  "description"%string ∉ [serviceNameAttrKey; instrumentationProviderAttrKey;
                          collectorNameAttrKey] →
  attributes service res (Some d) labels !! "unit" =
    (if decide (metric.Unit d = "")
     then last_writer "unit" (entries res ++ entries labels)
     else Some (any_string (metric.Unit d))) ∧
  attributes service res (Some d) labels !! "description" =
    (if decide (metric.Description d = "")
     then last_writer "description" (entries res ++ entries labels)
     else Some (any_string (metric.Description d))).
Proof.
  intros Hu Hd.
  apply not_elem_of_cons in Hu as [Hu1 Hu]. apply not_elem_of_cons in Hu as [Hu2 Hu].
  apply not_elem_of_cons in Hu as [Hu3 _].
  apply not_elem_of_cons in Hd as [Hd1 Hd]. apply not_elem_of_cons in Hd as [Hd2 Hd].
  apply not_elem_of_cons in Hd as [Hd3 _].
  assert (∀ k, k ≠ serviceNameAttrKey →
            last_writer k (service_entries service) = None) as Hs.
  { intros k Hk. unfold service_entries. case_decide; [done|]. simpl.
    by rewrite decide_False. }
  rewrite !lookup_attributes. unfold writes.
  rewrite !last_writer_app, !Hs by done.
  unfold provenance_entries. simpl.
  rewrite !(decide_False (P := collectorNameAttrKey = _)) by done.
  rewrite !(decide_False (P := instrumentationProviderAttrKey = _)) by done.
  simpl. split.
  - destruct (decide (metric.Unit d = "")), (decide (metric.Description d = ""));
      simpl; done.
  - destruct (decide (metric.Unit d = "")), (decide (metric.Description d = ""));
      simpl; done.
Qed.

End AttributeExtras.

Lemma attributes_size_eq_hint_witness :
  Z.of_nat (size (attributes (consts := nr_constants) "checkout-api"
                    MoreExamples.res_host (Some Examples.desc_requests)
                    MoreExamples.labels_route)) =
  attributes_n "checkout-api" MoreExamples.res_host
    (Some Examples.desc_requests) MoreExamples.labels_route.
Proof.
  apply (attributes_size_eq_hint (consts := nr_constants)).
  vm_compute. repeat (constructor; [set_solver|]). constructor.
Defined.

Lemma attributes_Permutation_witness :
  attributes (consts := nr_constants) "svc" Examples.res_ab None
    Examples.labels_ac =
  attributes (consts := nr_constants) "svc" MoreExamples.res_ba None
    MoreExamples.labels_ca.
Proof.
  apply (attributes_Permutation (consts := nr_constants)).
  - vm_compute. repeat (constructor; [set_solver|]). constructor.
  - vm_compute. repeat (constructor; [set_solver|]). constructor.
  - apply perm_swap.
  - apply perm_swap.
Defined.

Lemma attributes_unit_description_witness :
  attributes (consts := nr_constants) "svc" Examples.res_ab
    (Some Examples.desc_requests) MoreExamples.labels_unit !! "unit" =
    Some (any_string "ms") ∧
  attributes (consts := nr_constants) "svc" Examples.res_ab
    (Some Examples.desc_requests) MoreExamples.labels_unit !! "description" =
    Some (any_string "request latency").
Proof.
  apply (attributes_unit_description (consts := nr_constants) "svc"
           Examples.res_ab Examples.desc_requests MoreExamples.labels_unit).
  - vm_compute. set_solver.
  - vm_compute. set_solver.
Defined.

(** ** Further properties of the converters and the dispatcher *)

(** Case analysis on a record: its descriptor pointer, and for each accessor
    whether the aggregation has it and whether it fails. *)
Ltac record_cases record :=
  destruct record as
    [[?d|] ?labels [[[?mn [?e|]]|] [[?mx [?e|]]|] [[?sm [?e|]]|]
                    [[?ct [?e|]]|]]];
  unfold Record_, aggregation.as_MinMaxSumCount, aggregation.as_Sum,
    aggregation.implements_MinMaxSumCount, aggregation.implements_Sum,
    method_error in *;
  cbn [metricsdk.Descriptor metricsdk.Labels metricsdk.Aggregation
       aggregation.method_Min aggregation.method_Max aggregation.method_Sum
       aggregation.method_Count] in *.

(** Runs the converters on the accessor results at hand. *)
Ltac run :=
  cbv [sum minMaxSumCount minMaxSumCountValues mbind mret M_bind M_ret access
       emit deref not_nil aggregation.Sum.Sum aggregation.MinMaxSumCount.Min
       aggregation.MinMaxSumCount.Max aggregation.MinMaxSumCount.Sum
       aggregation.MinMaxSumCount.Count app ErrUnimplementedAgg accesses
       invocations trace omap fst snd] in *.

(** [minMaxSumCountValues] never panics, and it returns a nil error exactly
    when each of the four accessors returns a nil error; the four values are
    then the ones the accessors returned. *)
Theorem minMaxSumCountValues_nil_error a mn mx sm ct :
  (∃ r, (minMaxSumCountValues a).2 = Returns r) ∧
  ((minMaxSumCountValues a).2 = Returns (mn, mx, sm, ct, None) ↔
   aggregation.MinMaxSumCount.Min a = (mn, None) ∧
   aggregation.MinMaxSumCount.Max a = (mx, None) ∧
   aggregation.MinMaxSumCount.Sum a = (sm, None) ∧
   aggregation.MinMaxSumCount.Count a = (ct, None)).
Proof.
  destruct a as [[v1 [e1|]] [v2 [e2|]] [v3 [e3|]] [v4 [e4|]]]; simpl;
    (split; [eexists; reflexivity|]); naive_solver.
Qed.

Section DispatcherExtras.
Context {consts : Constants}.

(** [Record] panics exactly for a record with a nil descriptor whose
    aggregation is dispatched to a converter and whose accessors all
    succeed; in particular it returns for every record with a descriptor,
    and for a nil descriptor when an accessor fails or the aggregation is
    unsupported. *)
Theorem Record_panics_iff service res record :
  let agg := metricsdk.Aggregation record in
  (Record_ service res record).2 = Panics ↔
  metricsdk.Descriptor record = None ∧
  ((method_error agg AccMin = Some None ∧
    method_error agg AccMax = Some None ∧
    method_error agg AccSum = Some None ∧
    method_error agg AccCount = Some None) ∨
   (¬ aggregation.implements_MinMaxSumCount agg ∧
    method_error agg AccSum = Some None)).
Proof.
  record_cases record; run; unfold is_Some; naive_solver.
Qed.

(** Every metric [Record] returns comes with a nil error, is named after
    the descriptor and carries the mapping of [attributes] for the record;
    it is a Summary exactly when the aggregation has the four accessors,
    and a Count otherwise. *)
Theorem Record_metric_fields service res record t m e :
  Record_ service res record = (t, Returns (Some m, e)) →
  e = None ∧
  ∃ d, metricsdk.Descriptor record = Some d ∧
       metric_name m = metric.Name d ∧
       metric_attributes m =
         attributes service res (Some d) (metricsdk.Labels record) ∧
       ((∃ s, m = telemetry.OfSummary s) ↔
        aggregation.implements_MinMaxSumCount
          (metricsdk.Aggregation record)).
Proof.
  intros H. record_cases record; run; try discriminate H.
  all: injection H as <- <- <-.
  all: split; [done|]; exists d; split; [done|]; split; [done|];
    split; [done|].
  all: unfold is_Some; simpl; naive_solver.
Qed.

(** [Record] calls each accessor at most once, only accessors the
    aggregation has, and either [Sum] alone or a prefix of [Min], [Max],
    [Sum], [Count]. *)
Theorem Record_accesses service res record :
  let acs := accesses (Record_ service res record) in
  NoDup acs ∧
  (acs = [AccSum] ∨ acs `prefix_of` [AccMin; AccMax; AccSum; AccCount]) ∧
  Forall (λ acc, is_Some (method_error (metricsdk.Aggregation record) acc))
         acs.
Proof.
  record_cases record; run; cbv zeta;
    (split; [compute_done|]);
    (split; [first [left; reflexivity
                   | right; compute_done]|]);
    repeat constructor; simpl; eauto.
Qed.

(** [Record] makes up no error of its own but [ErrUnimplementedAgg]: an
    error it returns comes with a nil metric, and it is either
    [ErrUnimplementedAgg] for an aggregation without [Sum], no accessor
    having been called, or the error the last accessor it called
    returned. *)
Theorem Record_error_provenance service res record t m e :
  Record_ service res record = (t, Returns (m, Some e)) →
  m = None ∧
  ((t = [] ∧ e = UnimplementedAgg ∧
    ¬ aggregation.implements_Sum (metricsdk.Aggregation record)) ∨
   (∃ acc, last (accesses (Record_ service res record)) = Some acc ∧
           method_error (metricsdk.Aggregation record) acc =
             Some (Some e))).
Proof.
  intros H. record_cases record; run; try discriminate H.
  all: injection H as <- <- <-.
  all: split; [done|].
  all: first [ left; unfold is_Some; naive_solver
             | right; eexists; split; reflexivity ].
Qed.

End DispatcherExtras.

Lemma Record_metric_fields_witness :
  ∃ t m,
    Record_ (consts := nr_constants) "svc" Examples.res_ab
      (Examples.record_of Examples.desc_requests_float Examples.agg_sum) =
    (t, Returns (Some m, None)) ∧
    metric_name m = "requests"%string ∧
    metric_attributes m !! "a" = Some (any_string "l1").
Proof.
  eexists _, _. split; [reflexivity|].
  destruct (Record_metric_fields (consts := nr_constants) "svc"
              Examples.res_ab
              (Examples.record_of Examples.desc_requests_float
                 Examples.agg_sum) _ _ _ eq_refl)
    as (_ & d & Hd & Hn & Ha & _).
  injection Hd as <-. split; [exact Hn|]. rewrite Ha. reflexivity.
Defined.

Lemma Record_error_provenance_witness :
  ∃ acc,
    last (accesses (Record_ (consts := nr_constants) "svc" Examples.res_ab
                      (Examples.record_of Examples.desc_requests
                         Examples.agg_max_fails))) = Some acc ∧
    method_error Examples.agg_max_fails acc = Some (Some Examples.no_data).
Proof.
  destruct (Record_error_provenance (consts := nr_constants) "svc"
              Examples.res_ab
              (Examples.record_of Examples.desc_requests
                 Examples.agg_max_fails) _ _ _ eq_refl)
    as (_ & [(Ht & _) | H]).
  - discriminate Ht.
  - exact H.
Defined.
